(** * pymongo_wrapper: a shallow embedding of the pipeline builder, the
      connection providers and the insert repository, with the properties
      the specification states about them. *)

From Stdlib Require Import ZArith String.
From stdpp Require Import gmap strings list.

Open Scope string_scope.
Open Scope list_scope.

#[local] Set Warnings "-clear-no-such-hyp".

(** ** Python values

    The payloads the builder receives are arbitrary Python objects
    ([Dict[str, Any]], [int], ...).  A [dict] keeps insertion order, so it is
    an association list; assigning to a key that is present replaces the
    value in place and keeps the key's position. *)

Module Py.

#[warnings="-register-all"]
Inductive Value : Type :=
| VNone
| VBool (b : bool)
| VInt (n : Z)
| VStr (s : string)
| VList (l : list Value)
| VDict (d : list (string * Value)).

Section Dict.
Context {V : Type}.

Implicit Types (d : list (string * V)) (k : string) (v : V).

(** [d[k] = v] *)
Fixpoint dict_set d k v : list (string * V) :=
  match d with
  | [] => [(k, v)]
  | (k', v') :: d' =>
      if String.eqb k k' then (k', v) :: d' else (k', v') :: dict_set d' k v
  end.

(** [d.update(kvs)], also the loop [for k, v in kvs: d[k] = v] *)
Definition dict_update d (kvs : list (string * V)) : list (string * V) :=
  fold_left (fun acc kv => dict_set acc (fst kv) (snd kv)) kvs d.

(** [dict(kvs)] on a sequence of pairs *)
Definition dict_of_pairs (kvs : list (string * V)) : list (string * V) :=
  dict_update [] kvs.

(** [d.get(k)] *)
Fixpoint dict_get d k : option V :=
  match d with
  | [] => None
  | (k', v') :: d' => if String.eqb k k' then Some v' else dict_get d' k
  end.

Definition keys d : list string := map fst d.

(** A list of pairs is a dict exactly when no key repeats. *)
Definition dict_wf d : Prop := NoDup (keys d).

(** The value of the last pair of [kvs] whose key is [k]. *)
Definition last_assigned (kvs : list (string * V)) k : option V :=
  dict_get (rev kvs) k.
End Dict.

(** The keys of [l], each at the place of its first occurrence. *)
Fixpoint first_occurrences (l : list string) : list string :=
  match l with
  | [] => []
  | x :: l' => x :: filter (fun y => x ≠ y) (first_occurrences l')
  end.

(** Exceptions, and the outcome of a call that may raise. *)
Inductive Exception :=
| AttributeError (attr : string)
| KeyError (key : string)
| BulkWriteError (details : list (string * Value))
| OtherError (name : string).

Inductive Result (A : Type) :=
| Return (a : A)
| Raise (e : Exception).

Arguments Return {A} a.
Arguments Raise {A} e.

(** [isinstance(e, BulkWriteError)], the test of the [except] clause. *)
Definition is_BulkWriteError (e : Exception) : bool :=
  match e with
  | BulkWriteError _ => true
  | _ => false
  end.

End Py.

Import Py.

(** ** pipeline.py *)

Module Pipeline.

(** Python lists are objects: a builder holds a reference to its list, and
    [build] hands out that reference.  The store maps a list object's
    identity to its current contents. *)
Abbreviation Heap := (gmap nat (list Value)).

(** An instance has one attribute, [pipeline], the reference to its list. *)
Record PipelineBuilder := { pipeline : nat }.

(** [sortby: Union[List[Tuple[str, int]], Tuple[str, int]]] *)
Inductive SortBy :=
| SortTuple (p : string * Z)
| SortList (l : list (string * Z)).

(** [xs.append(x)] on the list object [l] *)
Definition list_append (l : nat) (x : Value) (h : Heap) : Heap :=
  alter (fun xs => xs ++ [x]) l h.

(** [PipelineBuilder()]: [self.pipeline = []] allocates a new list. *)
Definition __init__ (h : Heap) : PipelineBuilder * Heap :=
  let l := fresh (dom h) in ({| pipeline := l |}, <[l := []]> h).

Definition build (self : PipelineBuilder) (h : Heap) : nat * Heap :=
  (pipeline self, h).

Definition match_ (self : PipelineBuilder) (query : Value) (h : Heap)
  : PipelineBuilder * Heap :=
  (self, list_append (pipeline self) (VDict [("$match", query)]) h).

Definition project (self : PipelineBuilder) (fields : Value) (h : Heap)
  : PipelineBuilder * Heap :=
  (self, list_append (pipeline self) (VDict [("$project", fields)]) h).

(** One turn of the loop over [groupby], on [group_stage['_id']]. *)
Definition group_id_step (ident : list (string * Value)) (field : Value)
  : list (string * Value) :=
  match field with
  | VStr f => dict_set ident f (VStr ("$" +:+ f))
  | VDict d => dict_update ident d
  | _ => ident
  end.

Definition group_id (groupby : list Value) : list (string * Value) :=
  fold_left group_id_step groupby [].

(** The local [group_stage] when the stage is appended. *)
Definition group_stage (groupby : list Value) (kwargs : list (string * Value))
  : list (string * Value) :=
  dict_update [("_id", VDict (group_id groupby))] kwargs.

Definition group (self : PipelineBuilder) (groupby : list Value)
    (kwargs : list (string * Value)) (h : Heap) : PipelineBuilder * Heap :=
  (self,
   list_append (pipeline self)
     (VDict [("$group", VDict (group_stage groupby kwargs))]) h).

(** The local [sort_dict]. *)
Definition sort_dict (sortby : SortBy) : list (string * Z) :=
  let sortby :=
    match sortby with
    | SortTuple p => [p]
    | SortList l => l
    end in
  dict_of_pairs sortby.

Definition directions (d : list (string * Z)) : list (string * Value) :=
  map (fun kv => (fst kv, VInt (snd kv))) d.

Definition sort (self : PipelineBuilder) (sortby : SortBy) (h : Heap)
  : PipelineBuilder * Heap :=
  (self,
   list_append (pipeline self)
     (VDict [("$sort", VDict (directions (sort_dict sortby)))]) h).

Definition skip (self : PipelineBuilder) (n : Value) (h : Heap)
  : PipelineBuilder * Heap :=
  (self, list_append (pipeline self) (VDict [("$skip", n)]) h).

Definition limit (self : PipelineBuilder) (n : Value) (h : Heap)
  : PipelineBuilder * Heap :=
  (self, list_append (pipeline self) (VDict [("$limit", n)]) h).

Definition unwind (self : PipelineBuilder) (field : Value) (h : Heap)
  : PipelineBuilder * Heap :=
  (self, list_append (pipeline self) (VDict [("$unwind", field)]) h).

(** The seven stage-append methods, as a caller names them. *)
Inductive StageCall :=
| Match (query : Value)
| Project (fields : Value)
| Group (groupby : list Value) (kwargs : list (string * Value))
| Sort (sortby : SortBy)
| Skip (n : Value)
| Limit (n : Value)
| Unwind (field : Value).

Definition call (c : StageCall) (self : PipelineBuilder) (h : Heap)
  : PipelineBuilder * Heap :=
  match c with
  | Match query => match_ self query h
  | Project fields => project self fields h
  | Group groupby kwargs => group self groupby kwargs h
  | Sort sortby => sort self sortby h
  | Skip n => skip self n h
  | Limit n => limit self n h
  | Unwind field => unwind self field h
  end.

(** The dict literal each method hands to [append]. *)
Definition appended (c : StageCall) : Value :=
  match c with
  | Match query => VDict [("$match", query)]
  | Project fields => VDict [("$project", fields)]
  | Group groupby kwargs => VDict [("$group", VDict (group_stage groupby kwargs))]
  | Sort sortby => VDict [("$sort", VDict (directions (sort_dict sortby)))]
  | Skip n => VDict [("$skip", n)]
  | Limit n => VDict [("$limit", n)]
  | Unwind field => VDict [("$unwind", field)]
  end.

(** A client program: it creates builders, calls their methods and asks
    for the pipelines, in any interleaving. *)
Inductive Cmd :=
| New
| Call (b : PipelineBuilder) (c : StageCall)
| Build (b : PipelineBuilder).

Definition exec (cmd : Cmd) (h : Heap) : Heap :=
  match cmd with
  | New => snd (__init__ h)
  | Call b c => snd (call c b h)
  | Build b => snd (build b h)
  end.

Definition run (cmds : list Cmd) (h : Heap) : Heap :=
  fold_left (fun h cmd => exec cmd h) cmds h.

#[global] Instance PipelineBuilder_eq_dec : EqDecision PipelineBuilder.
Proof. solve_decision. Defined.

(** The stage-append calls of a program that are made on the builder [b]. *)
Definition calls_on (b : PipelineBuilder) (cmds : list Cmd) : list StageCall :=
  flat_map
    (fun cmd =>
       match cmd with
       | Call b' c => if decide (b' = b) then [c] else []
       | _ => []
       end) cmds.

Definition operators : list string :=
  ["$match"; "$project"; "$group"; "$sort"; "$skip"; "$limit"; "$unwind"].

(** The top-level keys of a stage document. *)
Definition top_level_keys (stage : Value) : option (list string) :=
  match stage with
  | VDict d => Some (keys d)
  | _ => None
  end.

(** What the spec says of the group identifier: a plain field name stands
    for the pair of the name and the reference to the field, a mapping for
    its own pairs, all in the order supplied. *)
Definition group_id_assignments (groupby : list Value) : list (string * Value) :=
  flat_map
    (fun field =>
       match field with
       | VStr f => [(f, VStr ("$" +:+ f))]
       | VDict d => d
       | _ => []
       end) groupby.

End Pipeline.

(** ** connection.py *)

Module Connection.

(** The driver is an external collaborator.  A client handle records the
    URI it was built from and which construction it came from; a database
    handle records its client and its name. *)
Record MongoClient := { client_id : nat; client_uri : option string }.

Record Database := { db_client : MongoClient; db_name : string }.

(** What the driver refuses: [MongoClient(uri)] raises on a URI it cannot
    parse, [client[name]] on a name it does not accept. *)
Record Driver := {
  MongoClient_error : option string → option Exception;
  getitem_error : string → option Exception
}.

(** The URIs of the clients constructed so far, oldest first. *)
Abbreviation World := (list (option string)).

(** [MongoClient(uri)] *)
Definition MongoClient_new (drv : Driver) (uri : option string) (w : World)
  : Result MongoClient * World :=
  match MongoClient_error drv uri with
  | Some e => (Raise e, w)
  | None => (Return {| client_id := length w; client_uri := uri |}, w ++ [uri])
  end.

(** [client[name]] *)
Definition getitem (drv : Driver) (c : MongoClient) (name : string)
  : Result Database :=
  match getitem_error drv name with
  | Some e => Raise e
  | None => Return {| db_client := c; db_name := name |}
  end.

(** What the Django variant reads from its surroundings: the answer of
    [find_package] (of [utils], which is not part of the sources, so its
    answer is a parameter), and the value of [settings.DATABASES], or the
    exception its import or evaluation raises. *)
Record Env := {
  find_package : string → bool;
  settings_DATABASES : Result (list (string * list (string * string)))
}.

(** Surroundings for examples: a driver that accepts every URI and every
    name; a project with Django and its settings; a machine without
    Django, where importing the settings fails. *)
Definition accepting : Driver :=
  {| MongoClient_error := fun _ => None; getitem_error := fun _ => None |}.

Definition with_django : Env :=
  {| find_package := fun name => String.eqb name "django";
     settings_DATABASES :=
       Return [("mongodb", [("URI", "mongodb://db"); ("DB_NAME", "prod")])] |}.

Definition without_django : Env :=
  {| find_package := fun _ => false;
     settings_DATABASES := Raise (OtherError "ModuleNotFoundError") |}.

Module MongoDBConnection.

Record t := { uri : string; client : option MongoClient }.

Definition __init__ (uri : string) : t := {| uri := uri; client := None |}.

(** A client object is truthy, so [not self.client] holds exactly while
    the attribute is [None]. *)
Definition get_database (drv : Driver) (self : t) (database_name : string)
    (w : World) : Result Database * t * World :=
  match client self with
  | Some c => (getitem drv c database_name, self, w)
  | None =>
      match MongoClient_new drv (Some (uri self)) w with
      | (Raise e, w') => (Raise e, self, w')
      | (Return c, w') =>
          (getitem drv c database_name,
           {| uri := uri self; client := Some c |}, w')
      end
  end.

(** Successive calls on one instance. *)
Fixpoint get_databases (drv : Driver) (self : t) (names : list string)
    (w : World) : list (Result Database) * t * World :=
  match names with
  | [] => ([], self, w)
  | n :: names' =>
      let '(r, self', w') := get_database drv self n w in
      let '(rs, self'', w'') := get_databases drv self' names' w' in
      (r :: rs, self'', w'')
  end.

End MongoDBConnection.

Module DjangoMongoDBConnection.

(** [db_name] is [None] while the instance has no such attribute. *)
Record t := {
  client : option MongoClient;
  uri : option string;
  db_name : option string
}.

(** Attribute assignments. *)
Definition set_client (c : MongoClient) (self : t) : t :=
  {| client := Some c; uri := uri self; db_name := db_name self |}.

Definition set_uri (u : option string) (self : t) : t :=
  {| client := client self; uri := u; db_name := db_name self |}.

Definition set_db_name (v : string) (self : t) : t :=
  {| client := client self; uri := uri self; db_name := Some v |}.

Definition _is_django_installed (env : Env) : bool := find_package env "django".

(** [settings.DATABASES['mongodb'][key]] *)
Definition settings_mongodb (env : Env) (key : string) : Result string :=
  match settings_DATABASES env with
  | Raise e => Raise e
  | Return databases =>
      match dict_get databases "mongodb" with
      | None => Raise (KeyError "mongodb")
      | Some cfg =>
          match dict_get cfg key with
          | None => Raise (KeyError key)
          | Some v => Return v
          end
      end
  end.

Definition get_database_uri (env : Env) (self : t) (use_django : bool)
  : Result (option string) :=
  if use_django && _is_django_installed env then
    match settings_mongodb env "URI" with
    | Raise e => Raise e
    | Return v => Return (Some v)
    end
  else Return (uri self).

(** [self.db_name], an [AttributeError] when the attribute is not set. *)
Definition read_db_name (self : t) : Result string :=
  match db_name self with
  | Some v => Return v
  | None => Raise (AttributeError "db_name")
  end.

Definition get_db_name (env : Env) (self : t) (use_django : bool)
  : Result string * t :=
  if use_django && _is_django_installed env then
    match settings_mongodb env "DB_NAME" with
    | Raise e => (Raise e, self)
    | Return v =>
        let self := set_db_name v self in
        (read_db_name self, self)
    end
  else (read_db_name self, self).

Definition __init__ (env : Env) (uri : option string) : Result t :=
  let self := {| client := None; uri := uri; db_name := None |} in
  match get_db_name env self true with
  | (Raise e, _) => Raise e
  | (Return v, self) => Return (set_db_name v self)
  end.

(** [self.client[self.db_name]] *)
Definition client_db (drv : Driver) (c : MongoClient) (self : t)
  : Result Database :=
  match read_db_name self with
  | Raise e => Raise e
  | Return name => getitem drv c name
  end.

Definition get_database (env : Env) (drv : Driver) (self : t)
    (database_name : string) (w : World) : Result Database * t * World :=
  match client self with
  | Some c => (client_db drv c self, self, w)
  | None =>
      match get_database_uri env self true with
      | Raise e => (Raise e, self, w)
      | Return u =>
          let self := set_uri u self in
          match MongoClient_new drv u w with
          | (Raise e, w') => (Raise e, self, w')
          | (Return c, w') =>
              let self := set_client c self in
              (client_db drv c self, self, w')
          end
      end
  end.

(** Successive calls on one instance; each call has its own argument and
    sees the surroundings as they are at that time. *)
Fixpoint get_databases (drv : Driver) (self : t)
    (calls : list (Env * string)) (w : World)
  : list (Result Database) * t * World :=
  match calls with
  | [] => ([], self, w)
  | (env, n) :: calls' =>
      let '(r, self', w') := get_database env drv self n w in
      let '(rs, self'', w'') := get_databases drv self' calls' w' in
      (r :: rs, self'', w'')
  end.

End DjangoMongoDBConnection.

End Connection.

(** ** repository.py *)

Module Repository.

(** The driver's [InsertManyResult]. *)
Record InsertManyResult := { inserted_ids : list Value; acknowledged : bool }.

(** What a repository needs of its collection handle.  [C] is the state of
    the collection behind the handle; a call returns or raises, and leaves
    the collection in a new state either way. *)
Class Collection (C : Type) := {
  coll_insert_many : C → list Value → Result InsertManyResult * C
}.

Section InsertRepository.
Context {C : Type} `{Collection C}.

(** [None] is Python's: the method falls off its end after [pass]. *)
Definition insert_many (collection : C) (documents : list Value)
  : Result (option InsertManyResult) * C :=
  match coll_insert_many collection documents with
  | (Return r, c') => (Return (Some r), c')
  | (Raise e, c') =>
      if is_BulkWriteError e then (Return None, c') else (Raise e, c')
  end.
End InsertRepository.

(** An in-memory collection of documents whose [_id] is unique, with the
    driver's ordered bulk insert: an empty list is refused with a
    [TypeError]; otherwise documents go in one by one, and the first one
    whose [_id] is taken stops the insert with a [BulkWriteError] that tells
    how many went in. *)
Module Mem.

Definition doc_id (doc : Value) : option Z :=
  match doc with
  | VDict d => match dict_get d "_id" with Some (VInt n) => Some n | _ => None end
  | _ => None
  end.

Definition taken (store : list Value) (id : Z) : bool :=
  existsb (fun doc => match doc_id doc with Some n => Z.eqb n id | None => false end) store.

(** The documents written, and whether the insert stopped early. *)
Fixpoint write (store : list Value) (documents : list Value)
  : list Value * bool :=
  match documents with
  | [] => (store, false)
  | doc :: rest =>
      match doc_id doc with
      | Some id =>
          if taken store id then (store, true) else write (store ++ [doc]) rest
      | None => write (store ++ [doc]) rest
      end
  end.

Definition mem_insert_many (store : list Value) (documents : list Value)
  : Result InsertManyResult * list Value :=
  let '(store', stopped) := write store documents in
  if (length documents =? 0)%nat then (Raise (OtherError "TypeError"), store)
  else if stopped then
    (Raise (BulkWriteError
              [("nInserted", VInt (Z.of_nat (length store' - length store)))]),
     store')
  else
    (Return {| inserted_ids :=
                 map (fun doc => match doc_id doc with Some n => VInt n | None => VNone end)
                   documents;
               acknowledged := true |},
     store').

#[global] Instance mem_collection : Collection (list Value) :=
  {| coll_insert_many := mem_insert_many |}.

End Mem.

End Repository.

(** ** mixins.py *)

Module Mixins.
Import Connection.

(** A collection handle records its database and its name. *)
Record CollectionHandle := { coll_database : Database; coll_name : string }.

(** [db[name]]; [collection_error] tells which names the driver refuses. *)
Definition db_getitem (collection_error : string → option Exception)
    (db : Database) (name : string) : Result CollectionHandle :=
  match collection_error name with
  | Some e => Raise e
  | None => Return {| coll_database := db; coll_name := name |}
  end.

Record DBConnectionMixin := { collection : CollectionHandle }.

(** The connection is a local of the constructor: the instance keeps the
    collection only. *)
Definition __init__ (drv : Driver)
    (collection_error : string → option Exception)
    (collection_name database_name uri : string) (w : World)
  : Result DBConnectionMixin * World :=
  let connection := MongoDBConnection.__init__ uri in
  match MongoDBConnection.get_database drv connection database_name w with
  | (Raise e, _, w') => (Raise e, w')
  | (Return db, _, w') =>
      match db_getitem collection_error db collection_name with
      | Raise e => (Raise e, w')
      | Return c => (Return {| collection := c |}, w')
      end
  end.

End Mixins.

(** ** repository.py: the facade *)

Module DBRepository.
Import Connection Mixins.

(** The five wrappers; each holds the collection it was given. *)
Record FindRepository := { find_collection : CollectionHandle }.
Record InsertRepository := { insert_collection : CollectionHandle }.
Record UpdateRepository := { update_collection : CollectionHandle }.
Record DeleteRepository := { delete_collection : CollectionHandle }.
Record QueryRepository := { query_collection : CollectionHandle }.

(** [super().__init__(collection_name, database_name, uri)] *)
Definition __init__ (drv : Driver)
    (collection_error : string → option Exception)
    (collection_name database_name uri : string) (w : World)
  : Result DBConnectionMixin * World :=
  Mixins.__init__ drv collection_error collection_name database_name uri w.

Definition find_repo (self : DBConnectionMixin) : FindRepository :=
  {| find_collection := collection self |}.

Definition insert_repo (self : DBConnectionMixin) : InsertRepository :=
  {| insert_collection := collection self |}.

Definition update_repo (self : DBConnectionMixin) : UpdateRepository :=
  {| update_collection := collection self |}.

Definition delete_repo (self : DBConnectionMixin) : DeleteRepository :=
  {| delete_collection := collection self |}.

Definition query_repo (self : DBConnectionMixin) : QueryRepository :=
  {| query_collection := collection self |}.

(** Facades made one after the other, each from its own three arguments. *)
Fixpoint make_all (drv : Driver)
    (collection_error : string → option Exception)
    (args : list (string * string * string)) (w : World)
  : list (Result DBConnectionMixin) * World :=
  match args with
  | [] => ([], w)
  | (collection_name, database_name, uri) :: args' =>
      let '(r, w') :=
        __init__ drv collection_error collection_name database_name uri w in
      let '(rs, w'') := make_all drv collection_error args' w' in
      (r :: rs, w'')
  end.

End DBRepository.

(** ** Words for the statements below *)

Module Aux.
Import Connection.

(** [isinstance(field, str) or isinstance(field, dict)] *)
Definition is_name_or_mapping (field : Value) : bool :=
  match field with
  | VStr _ | VDict _ => true
  | _ => false
  end.

(** A driver that refuses the one URI [bad] with [e], and no name. *)
Definition refusing_uri (bad : string) (e : Exception) : Driver :=
  {| MongoClient_error :=
       fun u => match u with
                | Some s => if String.eqb s bad then Some e else None
                | None => None
                end;
     getitem_error := fun _ => None |}.

(** A driver that refuses the one database name [bad] with [e]. *)
Definition refusing_name (bad : string) (e : Exception) : Driver :=
  {| MongoClient_error := fun _ => None;
     getitem_error := fun n => if String.eqb n bad then Some e else None |}.

(** Settings that name the database and leave the URI out. *)
Definition django_without_uri : Env :=
  {| find_package := fun name => String.eqb name "django";
     settings_DATABASES := Return [("mongodb", [("DB_NAME", "prod")])] |}.

(** Settings of a later time: another database. *)
Definition django_moved : Env :=
  {| find_package := fun name => String.eqb name "django";
     settings_DATABASES :=
       Return [("mongodb", [("URI", "mongodb://db2"); ("DB_NAME", "staging")])] |}.

End Aux.

(** * Properties *)

(** ** Python dict assignment *)

Module PyFacts.

Section Dict.
Context {V : Type}.

Implicit Types (d kvs : list (string * V)) (k : string) (v : V).

Lemma dict_get_set_eq d k v : dict_get (dict_set d k v) k = Some v.
Proof.
  induction d as [|[k' v'] d IH]; simpl.
  - by rewrite String.eqb_refl.
  - destruct (String.eqb k k') eqn:E; simpl; rewrite E; [done | apply IH].
Qed.

Lemma dict_get_set_ne d k k' v :
  k ≠ k' → dict_get (dict_set d k v) k' = dict_get d k'.
Proof.
  intros Hne. induction d as [|[k0 v0] d IH]; simpl.
  - by apply String.eqb_neq in Hne; rewrite String.eqb_sym, Hne.
  - destruct (String.eqb k k0) eqn:E; simpl.
    + apply String.eqb_eq in E as <-.
      assert (String.eqb k' k = false) as -> by (apply String.eqb_neq; congruence).
      done.
    + by rewrite IH.
Qed.

Lemma dict_get_None d k : dict_get d k = None ↔ k ∉ keys d.
Proof.
  induction d as [|[k' v'] d IH]; simpl.
  - split; [intros _; apply not_elem_of_nil | done].
  - rewrite not_elem_of_cons. destruct (String.eqb_spec k k') as [->|Hne].
    + split; [done | by intros [? _]].
    + rewrite IH. tauto.
Qed.

Lemma dict_get_app d1 d2 k :
  dict_get (d1 ++ d2) k =
    match dict_get d1 k with Some v => Some v | None => dict_get d2 k end.
Proof.
  induction d1 as [|[k' v'] d1 IH]; simpl; [done|].
  by destruct (String.eqb k k').
Qed.

Lemma dict_set_present d k v : k ∈ keys d → keys (dict_set d k v) = keys d.
Proof.
  induction d as [|[k' v'] d IH]; simpl.
  - by intros ?%elem_of_nil.
  - intros Hin. destruct (String.eqb_spec k k') as [->|Hne]; simpl; [done|].
    f_equal. apply IH. by apply elem_of_cons in Hin as [?|?].
Qed.

Lemma dict_set_fresh d k v : k ∉ keys d → dict_set d k v = d ++ [(k, v)].
Proof.
  induction d as [|[k' v'] d IH]; simpl; [done|].
  intros [Hne Hnin]%not_elem_of_cons.
  apply String.eqb_neq in Hne as ->. by rewrite IH.
Qed.

Lemma keys_app d1 d2 : keys (d1 ++ d2) = keys d1 ++ keys d2.
Proof. apply map_app. Qed.

Lemma dict_wf_set d k v : dict_wf d → dict_wf (dict_set d k v).
Proof.
  unfold dict_wf. intros Hwf. destruct (decide (k ∈ keys d)) as [Hin|Hnin].
  - by rewrite dict_set_present.
  - rewrite dict_set_fresh, keys_app by done. simpl.
    apply NoDup_app. split_and!; [done | | apply NoDup_singleton].
    intros x Hx ->%list_elem_of_singleton. done.
Qed.

Lemma dict_wf_update d kvs : dict_wf d → dict_wf (dict_update d kvs).
Proof.
  revert d. induction kvs as [|[k v] kvs IH]; intros d Hwf; simpl; [done|].
  apply IH, dict_wf_set, Hwf.
Qed.

(** Assigning pairs whose keys are new and pairwise distinct appends them
    as they come. *)
Lemma dict_update_distinct d kvs :
  NoDup (keys kvs) → (∀ k, k ∈ keys kvs → k ∉ keys d) →
  dict_update d kvs = d ++ kvs.
Proof.
  revert d. induction kvs as [|[k v] kvs IH]; intros d Hnd Hnew; simpl.
  - by rewrite app_nil_r.
  - simpl in Hnd. apply NoDup_cons in Hnd as [Hk Hnd].
    unfold dict_update in *. simpl.
    rewrite dict_set_fresh by (apply Hnew; simpl; left).
    rewrite IH; [by rewrite <- app_assoc | done |].
    intros k' Hk'. rewrite keys_app. simpl.
    rewrite not_elem_of_app, list_elem_of_singleton. split.
    + apply Hnew. simpl. by right.
    + intros ->. done.
Qed.

(** The last assignment to a key is the one that is read back. *)
Lemma dict_get_update d kvs k :
  dict_get (dict_update d kvs) k =
    match last_assigned kvs k with
    | Some v => Some v
    | None => dict_get d k
    end.
Proof.
  revert d. induction kvs as [|[k0 v0] kvs IH]; intros d.
  - done.
  - unfold dict_update, last_assigned in *. simpl.
    rewrite IH, dict_get_app. destruct (dict_get (rev kvs) k); [done|].
    simpl. destruct (String.eqb_spec k k0) as [->|Hne].
    + apply dict_get_set_eq.
    + by apply dict_get_set_ne.
Qed.

(** In a dict every key is assigned once, so the last assignment is the
    only one. *)
Lemma last_assigned_wf d k : dict_wf d → last_assigned d k = dict_get d k.
Proof.
  unfold dict_wf, last_assigned. induction d as [|[k0 v0] d IH]; [done|].
  simpl. intros [Hk0 Hnd]%NoDup_cons. rewrite dict_get_app, (IH Hnd). simpl.
  destruct (String.eqb_spec k k0) as [->|Hne].
  - apply dict_get_None in Hk0. by rewrite Hk0.
  - by destruct (dict_get d k).
Qed.
End Dict.

Lemma filter_all {A} (P : A → Prop) `{!∀ x, Decision (P x)} (l : list A) :
  (∀ x, x ∈ l → P x) → filter P l = l.
Proof.
  induction l as [|y l IH]; intros HP; [done|].
  rewrite filter_cons_True by (apply HP; left).
  f_equal. apply IH. intros x Hx. apply HP. by right.
Qed.

Lemma first_occurrences_elem x l : x ∈ first_occurrences l ↔ x ∈ l.
Proof.
  induction l as [|y l IH]; simpl; [done|].
  rewrite !elem_of_cons, list_elem_of_filter, IH.
  destruct (decide (x = y)) as [->|Hne]; [tauto|].
  split; [intros [?|[? ?]]; tauto | intros [?|?]; [tauto | right; split; congruence]].
Qed.

Lemma first_occurrences_NoDup l : NoDup (first_occurrences l).
Proof.
  induction l as [|y l IH]; simpl; [apply NoDup_nil_2|].
  apply NoDup_cons. split.
  - rewrite list_elem_of_filter. naive_solver.
  - by apply NoDup_filter.
Qed.

Lemma first_occurrences_distinct l : NoDup l → first_occurrences l = l.
Proof.
  induction l as [|y l IH]; simpl; [done|].
  intros [Hy Hnd]%NoDup_cons. rewrite IH by done. f_equal.
  apply filter_all. intros x Hx ->. done.
Qed.

Lemma first_occurrences_app a b :
  first_occurrences (a ++ b) =
    first_occurrences a ++ filter (fun y => y ∉ a) (first_occurrences b).
Proof.
  induction a as [|x a IH]; simpl.
  - symmetry. apply filter_all. intros ? _. apply not_elem_of_nil.
  - f_equal. rewrite IH, filter_app. f_equal.
    rewrite list_filter_filter. apply list_filter_iff.
    intros y. rewrite not_elem_of_cons. naive_solver.
Qed.

(** The keys of a dict built by assignments stand in the order in which
    they were first assigned. *)
Lemma keys_dict_update {V} (d kvs : list (string * V)) :
  keys (dict_update d kvs) =
    keys d ++ filter (fun y => y ∉ keys d) (first_occurrences (keys kvs)).
Proof.
  revert d. induction kvs as [|[k v] kvs IH]; intros d.
  - simpl. by rewrite app_nil_r.
  - unfold dict_update in *. simpl. rewrite IH.
    destruct (decide (k ∈ keys d)) as [Hin|Hnin].
    + rewrite dict_set_present by done. f_equal.
      rewrite filter_cons_False by naive_solver.
      rewrite list_filter_filter. apply list_filter_iff.
      intros y. naive_solver.
    + rewrite dict_set_fresh, keys_app by done. simpl.
      rewrite filter_cons_True by done.
      rewrite <- app_assoc. simpl. do 2 f_equal.
      rewrite list_filter_filter. apply list_filter_iff.
      intros y. rewrite not_elem_of_app, list_elem_of_singleton. naive_solver.
Qed.

Lemma keys_dict_of_pairs {V} (kvs : list (string * V)) :
  keys (dict_of_pairs kvs) = first_occurrences (keys kvs).
Proof.
  unfold dict_of_pairs. rewrite keys_dict_update. simpl.
  apply filter_all. intros ? _. apply not_elem_of_nil.
Qed.

Lemma dict_of_pairs_distinct {V} (kvs : list (string * V)) :
  NoDup (keys kvs) → dict_of_pairs kvs = kvs.
Proof.
  intros Hnd. unfold dict_of_pairs. rewrite dict_update_distinct; [done..|].
  intros ? _. apply not_elem_of_nil.
Qed.

End PyFacts.

(** ** The pipeline builder *)

Module PipelineSpec.
Import Pipeline PyFacts.

Lemma call_appends c b (h : Heap) :
  call c b h = (b, list_append (pipeline b) (appended c) h).
Proof. by destruct c. Qed.

Lemma list_append_lookup l x (h : Heap) stages :
  h !! l = Some stages → list_append l x h !! l = Some (stages ++ [x]).
Proof. intros Hl. unfold list_append. by rewrite lookup_alter_eq, Hl. Qed.

Lemma list_append_lookup_ne l l' x (h : Heap) :
  l ≠ l' → list_append l x h !! l' = h !! l'.
Proof. intros Hne. unfold list_append. by rewrite lookup_alter_ne. Qed.

Lemma init_fresh (h : Heap) : h !! pipeline (fst (__init__ h)) = None.
Proof. simpl. apply not_elem_of_dom, is_fresh. Qed.

Lemma init_lookup (h : Heap) :
  snd (__init__ h) !! pipeline (fst (__init__ h)) = Some [].
Proof. simpl. apply lookup_insert_eq. Qed.

(** A new builder leaves every list that exists as it is. *)
Lemma init_frame (h : Heap) l stages :
  h !! l = Some stages → snd (__init__ h) !! l = Some stages.
Proof.
  intros Hl. simpl. rewrite lookup_insert_ne; [done|].
  intros <-. pose proof (init_fresh h) as Hf. simpl in Hf. congruence.
Qed.

Lemma exec_lookup cmd b (h : Heap) stages :
  h !! pipeline b = Some stages →
  exec cmd h !! pipeline b = Some (stages ++ map appended (calls_on b [cmd])).
Proof.
  intros Hb. destruct cmd as [|b' c|b']; simpl.
  - rewrite app_nil_r. by apply (init_frame h).
  - rewrite call_appends. simpl. destruct (decide (b' = b)) as [->|Hne]; simpl.
    + by apply list_append_lookup.
    + rewrite app_nil_r, list_append_lookup_ne; [done|].
      intros Heq. apply Hne. destruct b', b. simpl in Heq. by subst.
  - by rewrite app_nil_r.
Qed.

Lemma calls_on_cons b cmd cmds :
  calls_on b (cmd :: cmds) = calls_on b [cmd] ++ calls_on b cmds.
Proof. unfold calls_on. simpl. by rewrite app_nil_r. Qed.

Lemma run_lookup cmds b (h : Heap) stages :
  h !! pipeline b = Some stages →
  run cmds h !! pipeline b = Some (stages ++ map appended (calls_on b cmds)).
Proof.
  revert h stages. induction cmds as [|cmd cmds IH]; intros h stages Hb.
  - simpl. by rewrite app_nil_r.
  - change (run (cmd :: cmds) h) with (run cmds (exec cmd h)).
    rewrite (IH _ _ (exec_lookup cmd b h stages Hb)).
    by rewrite (calls_on_cons b cmd cmds), map_app, app_assoc.
Qed.

(** The identifier mapping is the dict of the assignments the loop makes. *)
Lemma group_id_step_fold groupby ident :
  fold_left group_id_step groupby ident =
    dict_update ident (group_id_assignments groupby).
Proof.
  revert ident. induction groupby as [|field groupby IH]; intros ident; [done|].
  simpl. rewrite IH. unfold dict_update. rewrite fold_left_app.
  by destruct field.
Qed.

Lemma group_id_dict groupby :
  group_id groupby = dict_of_pairs (group_id_assignments groupby).
Proof. apply group_id_step_fold. Qed.

Lemma keys_directions d : keys (directions d) = keys d.
Proof. unfold keys, directions. rewrite map_map. done. Qed.

Lemma dict_get_directions d f :
  dict_get (directions d) f = VInt <$> dict_get d f.
Proof.
  induction d as [|[k v] d IH]; simpl; [done|].
  by destruct (String.eqb f k).
Qed.

(** What a [sort] call leaves in the builder's list. *)
Lemma sort_lookup sortby b (h : Heap) stages :
  h !! pipeline b = Some stages →
  snd (sort b sortby h) !! pipeline b
  = Some (stages ++ [VDict [("$sort", VDict (directions (sort_dict sortby)))]]).
Proof. intros Hb. by apply list_append_lookup. Qed.

(** What a [group] call leaves in the builder's list. *)
Lemma group_lookup groupby kwargs b (h : Heap) stages :
  h !! pipeline b = Some stages →
  snd (group b groupby kwargs h) !! pipeline b
  = Some (stages ++ [VDict [("$group", VDict (group_stage groupby kwargs))]]).
Proof. intros Hb. by apply list_append_lookup. Qed.

(** C1: after any program of stage-append calls, whatever it does with
    other builders in between, [build()] on a builder gives one stage for
    each call made on that builder, in the order of the calls, nothing
    merged or dropped; programs that make the same calls on the builder
    give the same pipeline.  [skip(5)], [limit(10)], [build()] gives the
    [$skip] stage and then the [$limit] stage. *)
Theorem build_returns_calls_in_order (h0 : Heap) (cmds : list Cmd) :
  let b := fst (__init__ h0) in
  let h1 := snd (__init__ h0) in
  let pipeline_of cmds :=
    snd (build b (run cmds h1)) !! fst (build b (run cmds h1)) in
  pipeline_of cmds = Some (map appended (calls_on b cmds))
  ∧ (∀ cmds', calls_on b cmds' = calls_on b cmds →
       pipeline_of cmds' = pipeline_of cmds)
  ∧ (let '(b1, h2) := skip b (VInt 5) h1 in
     let '(b2, h3) := limit b1 (VInt 10) h2 in
     let '(r, h4) := build b2 h3 in
     h4 !! r = Some [VDict [("$skip", VInt 5)]; VDict [("$limit", VInt 10)]]).
Proof.
  intros b h1 pipeline_of.
  assert (Hrun : ∀ cs, pipeline_of cs = Some (map appended (calls_on b cs))).
  { intros cs. unfold pipeline_of. simpl.
    apply (run_lookup cs b h1 []), init_lookup. }
  split_and!.
  - apply Hrun.
  - intros cmds' Heq. by rewrite !Hrun, Heq.
  - simpl. unfold list_append. rewrite !lookup_alter_eq.
    subst h1. simpl. by rewrite lookup_insert_eq.
Qed.

(** C7: [build()] returns the builder's list and changes nothing; a
    stage-append call made afterwards extends that same list, and the next
    [build()] returns the stages there were, followed by the new one. *)
Theorem build_does_not_reset (b : PipelineBuilder) (h : Heap)
    (stages : list Value) (c : StageCall) :
  h !! pipeline b = Some stages →
  let '(r, h1) := build b h in
  h1 = h ∧ h1 !! r = Some stages
  ∧ let '(b2, h2) := call c b h1 in
    b2 = b
    ∧ let '(r2, h3) := build b2 h2 in
      r2 = r ∧ h3 !! r2 = Some (stages ++ [appended c]).
Proof.
  intros Hb. simpl. rewrite call_appends. simpl.
  split_and!; try done. by apply list_append_lookup.
Qed.

Lemma build_does_not_reset_witness :
  let b := {| pipeline := 0 |} in
  let h : Heap := {[ 0 := [VDict [("$skip", VInt 5)]] ]} in
  h !! pipeline b = Some [VDict [("$skip", VInt 5)]]
  ∧ snd (build b (snd (call (Limit (VInt 10)) b (snd (build b h)))))
      !! fst (build b h)
    = Some [VDict [("$skip", VInt 5)]; VDict [("$limit", VInt 10)]].
Proof.
  intros b h.
  assert (Hb : h !! pipeline b = Some [VDict [("$skip", VInt 5)]])
    by apply lookup_singleton_eq.
  split; [exact Hb|].
  pose proof (build_does_not_reset b h _ (Limit (VInt 10)) Hb) as Hthm.
  simpl in Hthm. destruct Hthm as (_ & _ & _ & _ & Hlast). exact Hlast.
Defined.

(** C8: every stage-append call appends a mapping with exactly one
    top-level key, the name of its operator; so every element of the
    pipeline [build()] returns has exactly one top-level key. *)
Theorem stages_have_one_key (h0 : Heap) (cmds : list Cmd) :
  let b := fst (__init__ h0) in
  let h := run cmds (snd (__init__ h0)) in
  (∀ c b' (h' : Heap) stages, h' !! pipeline b' = Some stages →
     ∃ k v, snd (call c b' h') !! pipeline b'
              = Some (stages ++ [VDict [(k, v)]]) ∧ k ∈ operators)
  ∧ ∃ stages, snd (build b h) !! fst (build b h) = Some stages
      ∧ Forall (fun stage =>
                  ∃ k, top_level_keys stage = Some [k] ∧ k ∈ operators) stages.
Proof.
  intros b h.
  assert (Hop : ∀ c, ∃ k v, appended c = VDict [(k, v)] ∧ k ∈ operators).
  { intros c. unfold operators.
    destruct c; simpl; do 2 eexists; (split; [reflexivity|]);
      rewrite !elem_of_cons; tauto. }
  split.
  - intros c b' h' stages Hb'. destruct (Hop c) as (k & v & Hc & Hk).
    exists k, v. split; [|done].
    rewrite call_appends. simpl. rewrite <- Hc. by apply list_append_lookup.
  - exists (map appended (calls_on b cmds)). split.
    + apply (run_lookup cmds b _ []), init_lookup.
    + apply Forall_forall. intros stage (c & -> & _)%list_elem_of_fmap.
      destruct (Hop c) as (k & v & -> & Hk). by exists k.
Qed.

(** C6: a single pair and the one-element list of that pair give the same
    [$sort] stage: after either call the builder's list ends with the one
    stage whose mapping has the pair's field and direction, for
    [("x", -1)] the stage [{"$sort": {"x": -1}}]; a list of pairs with
    pairwise distinct field names leaves the stage whose mapping lists the
    fields, each with its direction, as the list does, as for
    [[("a", 1), ("b", -1)]]. *)
Theorem sort_pair_and_order (p : string * Z) (l : list (string * Z))
    (b : PipelineBuilder) (h : Heap) (stages : list Value) :
  NoDup (keys l) →
  h !! pipeline b = Some stages →
  sort b (SortTuple p) h = sort b (SortList [p]) h
  ∧ sort b (SortTuple ("x", -1)%Z) h
    = (b, list_append (pipeline b) (VDict [("$sort", VDict [("x", VInt (-1))])]) h)
  ∧ sort b (SortList [("x", -1)%Z]) h
    = (b, list_append (pipeline b) (VDict [("$sort", VDict [("x", VInt (-1))])]) h)
  ∧ sort_dict (SortList l) = l
  ∧ sort b (SortList l) h
    = (b, list_append (pipeline b) (VDict [("$sort", VDict (directions l))]) h)
  ∧ keys (directions l) = keys l
  ∧ sort b (SortList [("a", 1); ("b", -1)]%Z) h
    = (b, list_append (pipeline b)
            (VDict [("$sort", VDict [("a", VInt 1); ("b", VInt (-1))])]) h)
  ∧ snd (sort b (SortTuple p) h) !! pipeline b
    = Some (stages ++ [VDict [("$sort", VDict [(fst p, VInt (snd p))])]])
  ∧ snd (sort b (SortList [p]) h) !! pipeline b
    = Some (stages ++ [VDict [("$sort", VDict [(fst p, VInt (snd p))])]])
  ∧ snd (sort b (SortTuple ("x", -1)%Z) h) !! pipeline b
    = Some (stages ++ [VDict [("$sort", VDict [("x", VInt (-1))])]])
  ∧ snd (sort b (SortList [("x", -1)%Z]) h) !! pipeline b
    = Some (stages ++ [VDict [("$sort", VDict [("x", VInt (-1))])]])
  ∧ snd (sort b (SortList l) h) !! pipeline b
    = Some (stages
            ++ [VDict [("$sort",
                        VDict (map (fun kv => (fst kv, VInt (snd kv))) l))]])
  ∧ snd (sort b (SortList [("a", 1); ("b", -1)]%Z) h) !! pipeline b
    = Some (stages
            ++ [VDict [("$sort", VDict [("a", VInt 1); ("b", VInt (-1))])]]).
Proof.
  intros Hnd Hb.
  assert (Hl : sort_dict (SortList l) = l) by by apply dict_of_pairs_distinct.
  split_and!; try done.
  - unfold sort. by rewrite Hl.
  - apply keys_directions.
  - by rewrite (sort_lookup _ b h stages Hb).
  - by rewrite (sort_lookup _ b h stages Hb).
  - by rewrite (sort_lookup _ b h stages Hb).
  - by rewrite (sort_lookup _ b h stages Hb).
  - by rewrite (sort_lookup _ b h stages Hb), Hl.
  - by rewrite (sort_lookup _ b h stages Hb).
Qed.

Lemma sort_pair_and_order_witness :
  let b := {| pipeline := 0 |} in
  let h : Heap := {[ 0 := [VDict [("$skip", VInt 5)]] ]} in
  NoDup (keys [("a", 1); ("b", -1)]%Z)
  ∧ h !! pipeline b = Some [VDict [("$skip", VInt 5)]]
  ∧ sort_dict (SortList [("a", 1); ("b", -1)]%Z) = [("a", 1); ("b", -1)]%Z
  ∧ snd (sort b (SortList [("a", 1); ("b", -1)]%Z) h) !! pipeline b
    = Some [VDict [("$skip", VInt 5)];
            VDict [("$sort", VDict [("a", VInt 1); ("b", VInt (-1))])]]
  ∧ snd (sort b (SortTuple ("x", -1)%Z) h) !! pipeline b
    = snd (sort b (SortList [("x", -1)%Z]) h) !! pipeline b.
Proof.
  intros b h.
  assert (Hnd : NoDup (keys [("a", 1); ("b", -1)]%Z)).
  { simpl. apply NoDup_cons. split.
    - rewrite list_elem_of_singleton. discriminate.
    - apply NoDup_singleton. }
  assert (Hb : h !! pipeline b = Some [VDict [("$skip", VInt 5)]])
    by apply lookup_singleton_eq.
  split; [exact Hnd|]. split; [exact Hb|].
  pose proof (sort_pair_and_order ("x", -1)%Z _ b h _ Hnd Hb)
    as (_ & _ & _ & Hdict & _ & _ & _ & _ & _ & Hx & Hx' & Hl & _).
  split; [exact Hdict|]. split; [exact Hl|].
  exact (eq_trans Hx (eq_sym Hx')).
Defined.

(** C10: when a field name comes twice in the list given to [sort], the
    [$sort] mapping has one entry for it (no key of the mapping repeats),
    with the direction of the last of the two pairs, at the place of the
    field's first occurrence among the fields: so it is of the mapping
    [sort] makes of the list, and so it is of the mapping in the stage
    that the call leaves in the builder's list; two equal [sort] calls on
    a builder still leave two stages. *)
Theorem sort_duplicate_field (l1 l2 l3 : list (string * Z)) (f : string)
    (d1 d2 : Z) (h0 : Heap) :
  f ∉ keys l1 → f ∉ keys l3 →
  let l := l1 ++ (f, d1) :: l2 ++ (f, d2) :: l3 in
  let sd := sort_dict (SortList l) in
  dict_get sd f = Some d2
  ∧ dict_wf sd
  ∧ keys sd = first_occurrences (keys l)
  ∧ (∃ rest, keys sd = (first_occurrences (keys l1) ++ f :: rest)
             ∧ (f ∉ first_occurrences (keys l1)) ∧ (f ∉ rest))
  ∧ keys sd !! length (first_occurrences (keys l1)) = Some f
  ∧ (let b := fst (__init__ h0) in
     let stage := VDict [("$sort", VDict (directions sd))] in
     snd (sort b (SortList l) (snd (sort b (SortList l) (snd (__init__ h0)))))
       !! pipeline b = Some [stage; stage])
  ∧ (let b := fst (__init__ h0) in
     ∃ m, snd (sort b (SortList l) (snd (__init__ h0))) !! pipeline b
          = Some [VDict [("$sort", VDict m)]]
          ∧ dict_get m f = Some (VInt d2)
          ∧ dict_wf m
          ∧ keys m = first_occurrences (keys l)
          ∧ (∃ rest, keys m = (first_occurrences (keys l1) ++ f :: rest)
                     ∧ (f ∉ first_occurrences (keys l1)) ∧ (f ∉ rest))
          ∧ keys m !! length (first_occurrences (keys l1)) = Some f
          ∧ (∀ k, dict_get m k = VInt <$> last_assigned l k)
          ∧ snd (sort b (SortList l)
                   (snd (sort b (SortList l) (snd (__init__ h0)))))
              !! pipeline b
            = Some [VDict [("$sort", VDict m)]; VDict [("$sort", VDict m)]]).
Proof.
  intros Hl1 Hl3 l sd.
  assert (Hkeys : keys sd = first_occurrences (keys l))
    by apply keys_dict_of_pairs.
  assert (Hsplit : ∃ rest, keys sd = (first_occurrences (keys l1) ++ f :: rest)
                           ∧ (f ∉ first_occurrences (keys l1)) ∧ (f ∉ rest)).
  { rewrite Hkeys. subst l. rewrite keys_app, first_occurrences_app. simpl.
    rewrite filter_cons_True by done.
    eexists. split; [reflexivity|]. split.
    - by rewrite first_occurrences_elem.
    - rewrite !list_elem_of_filter. tauto. }
  assert (Hwf : dict_wf sd) by apply (dict_wf_update [] l), NoDup_nil_2.
  assert (Hlast : ∀ k, dict_get sd k = last_assigned l k).
  { intros k. unfold sd, sort_dict, dict_of_pairs. rewrite dict_get_update.
    simpl. by destruct (last_assigned l k). }
  assert (Hget : dict_get sd f = Some d2).
  { rewrite Hlast. unfold last_assigned, l.
    rewrite rev_app_distr. simpl. rewrite <- !app_assoc. simpl.
    rewrite rev_app_distr. simpl. rewrite <- !app_assoc. simpl.
    rewrite dict_get_app.
    assert (dict_get (rev l3) f = None) as ->.
    { apply dict_get_None. unfold keys.
      rewrite map_rev, list_elem_of_In, <- in_rev, <- list_elem_of_In.
      exact Hl3. }
    simpl. by rewrite String.eqb_refl. }
  assert (Hpos : keys sd !! length (first_occurrences (keys l1)) = Some f).
  { destruct Hsplit as (rest & -> & _ & _).
    rewrite lookup_app_r by done. by rewrite Nat.sub_diag. }
  assert (Htwice : snd (sort (fst (__init__ h0)) (SortList l)
                          (snd (sort (fst (__init__ h0)) (SortList l)
                                  (snd (__init__ h0)))))
                     !! pipeline (fst (__init__ h0))
                   = Some [VDict [("$sort", VDict (directions sd))];
                           VDict [("$sort", VDict (directions sd))]]).
  { rewrite (sort_lookup _ _ _ [VDict [("$sort", VDict (directions sd))]]);
      [done|].
    rewrite (sort_lookup _ _ _ []); [done | apply init_lookup]. }
  split_and!; try done.
  exists (directions sd). rewrite keys_directions. split_and!; try done.
  - rewrite (sort_lookup _ _ _ []); [done | apply init_lookup].
  - by rewrite dict_get_directions, Hget.
  - unfold dict_wf. by rewrite keys_directions.
  - intros k. by rewrite dict_get_directions, Hlast.
Qed.

Lemma sort_duplicate_field_witness :
  let l := [("a", 1); ("b", 1); ("a", -1)]%Z in
  ("a" ∉ keys ([] : list (string * Z)))
  ∧ dict_get (sort_dict (SortList l)) "a" = Some (-1)%Z
  ∧ keys (sort_dict (SortList l)) = first_occurrences (keys l)
  ∧ snd (sort (fst (__init__ ∅)) (SortList l)
           (snd (sort (fst (__init__ ∅)) (SortList l) (snd (__init__ ∅)))))
      !! pipeline (fst (__init__ ∅))
    = Some [VDict [("$sort", VDict [("a", VInt (-1)); ("b", VInt 1)])];
            VDict [("$sort", VDict [("a", VInt (-1)); ("b", VInt 1)])]].
Proof.
  intros l.
  assert (Hnil : "a" ∉ keys ([] : list (string * Z))) by apply not_elem_of_nil.
  split; [exact Hnil|].
  pose proof (sort_duplicate_field [] [("b", 1%Z)] [] "a" 1 (-1) ∅ Hnil Hnil)
    as (Hget & _ & Hkeys & _ & _ & Htwice & _).
  split; [exact Hget|]. split; [exact Hkeys | exact Htwice].
Defined.

(** C2: [group] appends one [$group] stage: after the call the builder's
    list is the list it was, followed by that stage.  The stage's ["_id"]
    mapping is the dict of the identifier's assignments: a plain field
    name [f] assigns the reference ["$f"] to [f], a mapping assigns its own
    pairs, all in the order supplied, a later assignment to a name
    replacing the earlier value at the name's first place.  The
    accumulator keywords follow ["_id"] as sibling keys, in their order,
    each with its value, also one whose name is a key of the identifier;
    the one name that collides is ["_id"] itself, and an accumulator of
    that name replaces the identifier.  For
    [group(["a", "b"], total=expr)] the stage is
    [{"$group": {"_id": {"a": "$a", "b": "$b"}, "total": expr}}]. *)
Theorem group_stage_shape (groupby : list Value)
    (kwargs : list (string * Value)) (b : PipelineBuilder) (h : Heap)
    (stages : list Value) :
  dict_wf kwargs →
  h !! pipeline b = Some stages →
  let ident := group_id groupby in
  let g := group_stage groupby kwargs in
  group b groupby kwargs h
  = (b, list_append (pipeline b) (VDict [("$group", VDict g)]) h)
  ∧ ident = dict_of_pairs (group_id_assignments groupby)
  ∧ keys ident = first_occurrences (keys (group_id_assignments groupby))
  ∧ (∀ k, dict_get ident k = last_assigned (group_id_assignments groupby) k)
  ∧ (NoDup (keys (group_id_assignments groupby)) →
     ident = group_id_assignments groupby)
  ∧ keys g = "_id" :: filter (fun k => k ≠ "_id") (keys kwargs)
  ∧ (∀ k, k ≠ "_id" → dict_get g k = dict_get kwargs k)
  ∧ ("_id" ∉ keys kwargs → g = ("_id", VDict ident) :: kwargs)
  ∧ ("_id" ∈ keys kwargs → dict_get g "_id" = dict_get kwargs "_id")
  ∧ (∀ expr,
       group b [VStr "a"; VStr "b"] [("total", expr)] h
       = (b, list_append (pipeline b)
               (VDict [("$group",
                        VDict [("_id", VDict [("a", VStr "$a"); ("b", VStr "$b")]);
                               ("total", expr)])]) h))
  ∧ fst (group b groupby kwargs h) = b
  ∧ snd (group b groupby kwargs h) !! pipeline b
    = Some (stages ++ [VDict [("$group", VDict g)]])
  ∧ ("_id" ∉ keys kwargs →
     snd (group b groupby kwargs h) !! pipeline b
     = Some (stages
             ++ [VDict [("$group",
                         VDict (("_id",
                                 VDict (dict_of_pairs
                                          (group_id_assignments groupby)))
                                :: kwargs))]]))
  ∧ (∀ expr,
       snd (group b [VStr "a"; VStr "b"] [("total", expr)] h) !! pipeline b
       = Some (stages
               ++ [VDict [("$group",
                           VDict [("_id",
                                   VDict [("a", VStr "$a"); ("b", VStr "$b")]);
                                  ("total", expr)])]])).
Proof.
  intros Hwf Hb ident g.
  assert (Hshape : "_id" ∉ keys kwargs → g = ("_id", VDict ident) :: kwargs).
  { intros Hid. unfold g, group_stage.
    rewrite dict_update_distinct; [done | done |].
    intros k Hk. simpl. rewrite list_elem_of_singleton. intros ->. done. }
  split_and!.
  - done.
  - apply group_id_dict.
  - unfold ident. rewrite group_id_dict. apply keys_dict_of_pairs.
  - intros k. unfold ident. rewrite group_id_dict. unfold dict_of_pairs.
    rewrite dict_get_update. simpl. by destruct (last_assigned _ k).
  - intros Hnd. unfold ident. rewrite group_id_dict.
    by apply dict_of_pairs_distinct.
  - unfold g, group_stage. rewrite keys_dict_update. simpl. f_equal.
    rewrite first_occurrences_distinct by done.
    apply list_filter_iff. intros k. by rewrite list_elem_of_singleton.
  - intros k Hk. unfold g, group_stage.
    rewrite dict_get_update, last_assigned_wf by done. simpl.
    assert (String.eqb k "_id" = false) as -> by by apply String.eqb_neq.
    by destruct (dict_get kwargs k).
  - exact Hshape.
  - intros Hid. unfold g, group_stage.
    rewrite dict_get_update, last_assigned_wf by done.
    destruct (dict_get kwargs "_id") eqn:Hget; [done|].
    by apply dict_get_None in Hget.
  - done.
  - done.
  - by apply group_lookup.
  - intros Hid. rewrite (group_lookup _ _ b h stages Hb).
    fold g. rewrite (Hshape Hid). unfold ident. by rewrite group_id_dict.
  - intros expr. by rewrite (group_lookup _ _ b h stages Hb).
Qed.

Lemma group_stage_shape_witness :
  let kwargs := [("a", VDict [("$sum", VInt 1)])] in
  let groupby := [VStr "a"; VDict [("m", VStr "$t"); ("a", VInt 0)]; VStr "m"] in
  let b := {| pipeline := 0 |} in
  let h : Heap := {[ 0 := [VDict [("$skip", VInt 5)]] ]} in
  dict_wf kwargs
  ∧ h !! pipeline b = Some [VDict [("$skip", VInt 5)]]
  ∧ group_id groupby = [("a", VInt 0); ("m", VStr "$m")]
  ∧ keys (group_stage groupby kwargs) = ["_id"; "a"]
  ∧ snd (group b groupby kwargs h) !! pipeline b
    = Some [VDict [("$skip", VInt 5)];
            VDict [("$group",
                    VDict [("_id", VDict [("a", VInt 0); ("m", VStr "$m")]);
                           ("a", VDict [("$sum", VInt 1)])])]].
Proof.
  intros kwargs groupby b h.
  assert (Hwf : dict_wf kwargs) by apply NoDup_singleton.
  assert (Hb : h !! pipeline b = Some [VDict [("$skip", VInt 5)]])
    by apply lookup_singleton_eq.
  split; [exact Hwf|]. split; [exact Hb|].
  pose proof (group_stage_shape groupby kwargs b h _ Hwf Hb)
    as (_ & Hident & _ & _ & _ & Hkeys & _ & _ & _ & _ & _ & Hheap & _).
  split; [exact Hident|]. split; [exact Hkeys | exact Hheap].
Defined.

(** An accumulator keyword named ["_id"] takes the place of the identifier. *)
Example group_id_keyword (b : PipelineBuilder) (h : Heap) :
  group b [VStr "a"] [("_id", VInt 1)] h
  = (b, list_append (pipeline b) (VDict [("$group", VDict [("_id", VInt 1)])]) h).
Proof. reflexivity. Qed.

End PipelineSpec.

(** ** The connection providers *)

Module ConnectionSpec.
Import Connection.

Section Direct.
Import MongoDBConnection.

Variable drv : Driver.

(** With a client in place no client is built: the call is the lookup. *)
Lemma get_database_cached self c n (w : World) :
  client self = Some c → get_database drv self n w = (getitem drv c n, self, w).
Proof. intros Hc. unfold get_database. by rewrite Hc. Qed.

Lemma get_databases_cached self c names (w : World) :
  client self = Some c →
  get_databases drv self names w = (map (getitem drv c) names, self, w).
Proof.
  intros Hc. induction names as [|n names IH]; simpl; [done|].
  by rewrite (get_database_cached self c), IH.
Qed.

Lemma get_database_first uri n (w : World) :
  MongoClient_error drv (Some uri) = None →
  let c := {| client_id := length w; client_uri := Some uri |} in
  get_database drv (__init__ uri) n w
  = (getitem drv c n, {| uri := uri; client := Some c |}, w ++ [Some uri]).
Proof.
  intros Hok. unfold get_database, MongoClient_new. simpl. by rewrite Hok.
Qed.
End Direct.

(** C5: on a new [MongoDBConnection] the first [get_database] builds one
    client, from the URI given to the constructor, and keeps it in
    [client]; every later [get_database] on the instance uses that client
    and builds none; each call returns the database of that name of the
    one client. *)
Theorem direct_client_memoized (drv : Driver) (uri n : string)
    (names : list string) (w : World) :
  MongoClient_error drv (Some uri) = None →
  let self0 := MongoDBConnection.__init__ uri in
  let c := {| client_id := length w; client_uri := Some uri |} in
  let '(r, self1, w1) := MongoDBConnection.get_database drv self0 n w in
  let '(rs, self2, w2) := MongoDBConnection.get_databases drv self1 names w1 in
  MongoDBConnection.client self0 = None
  ∧ MongoDBConnection.client self1 = Some c
  ∧ w1 = w ++ [Some uri]
  ∧ r = getitem drv c n
  ∧ (getitem_error drv n = None → r = Return {| db_client := c; db_name := n |})
  ∧ MongoDBConnection.client self2 = Some c
  ∧ w2 = w1
  ∧ rs = map (getitem drv c) names.
Proof.
  intros Hok self0 c. unfold self0.
  rewrite (get_database_first drv uri n w Hok). fold c.
  rewrite (get_databases_cached drv _ c) by done.
  split_and!; try done.
  intros Hn. unfold getitem. by rewrite Hn.
Qed.

Lemma direct_client_memoized_witness :
  let c := {| client_id := 0; client_uri := Some "mongodb://h" |} in
  MongoClient_error accepting (Some "mongodb://h") = None
  ∧ MongoDBConnection.get_databases accepting
      (MongoDBConnection.__init__ "mongodb://h") ["shop"; "logs"; "shop"] []
    = ([Return {| db_client := c; db_name := "shop" |};
        Return {| db_client := c; db_name := "logs" |};
        Return {| db_client := c; db_name := "shop" |}],
       {| MongoDBConnection.uri := "mongodb://h";
          MongoDBConnection.client := Some c |},
       [Some "mongodb://h"]).
Proof.
  intros c. split; [reflexivity|].
  pose proof (direct_client_memoized accepting "mongodb://h" "shop"
                ["logs"; "shop"] [] eq_refl) as Hthm.
  simpl in Hthm. destruct Hthm as (_ & _ & _ & _ & _ & _ & _ & _).
  reflexivity.
Defined.

Section Django.
Import DjangoMongoDBConnection.

(** The name passed is not read. *)
Lemma get_database_any_name env drv self n1 n2 (w : World) :
  get_database env drv self n1 w = get_database env drv self n2 w.
Proof. reflexivity. Qed.

Lemma get_database_db_name env drv self n (w : World) :
  db_name (snd (fst (get_database env drv self n w))) = db_name self.
Proof.
  unfold get_database. destruct (client self); [done|].
  destruct (get_database_uri env self true); [|done].
  unfold MongoClient_new. by destruct (MongoClient_error drv a).
Qed.

Lemma client_db_name drv c self db :
  client_db drv c self = Return db → db_name self = Some (Connection.db_name db).
Proof.
  unfold client_db, read_db_name, getitem. destruct (db_name self); [|done].
  destruct (getitem_error drv s); [done|]. by intros [= <-].
Qed.

Lemma get_database_returns env drv self n (w : World) db :
  fst (fst (get_database env drv self n w)) = Return db →
  db_name self = Some (Connection.db_name db).
Proof.
  unfold get_database. destruct (client self).
  - apply client_db_name.
  - destruct (get_database_uri env self true); [|done].
    unfold MongoClient_new. destruct (MongoClient_error drv a); [done|].
    simpl. intros Hdb%client_db_name. done.
Qed.

Lemma get_databases_db_name drv calls : ∀ self (w : World),
  db_name (snd (fst (get_databases drv self calls w))) = db_name self
  ∧ Forall (fun r => ∀ db, r = Return db →
                     db_name self = Some (Connection.db_name db))
      (fst (fst (get_databases drv self calls w))).
Proof.
  induction calls as [|[env n] calls IH]; intros self w; simpl; [done|].
  pose proof (get_database_db_name env drv self n w) as Hname.
  pose proof (get_database_returns env drv self n w) as Hret.
  destruct (get_database env drv self n w) as [[r self'] w'].
  specialize (IH self' w').
  destruct (get_databases drv self' calls w') as [[rs self''] w''].
  simpl in *. destruct IH as [IH1 IH2]. split; [congruence|].
  constructor.
  - intros db ->. by apply Hret.
  - rewrite <- Hname. exact IH2.
Qed.

Lemma get_databases_any_names drv calls : ∀ calls' self (w : World),
  map fst calls = map fst calls' →
  get_databases drv self calls w = get_databases drv self calls' w.
Proof.
  induction calls as [|[env n] calls IH]; intros [|[env' n'] calls'] self w;
    simpl; try done.
  intros [= -> Hrest].
  rewrite (get_database_any_name env' drv self n n' w).
  destruct (get_database env' drv self n' w) as [[r self'] w'].
  by rewrite (IH calls' self' w' Hrest).
Qed.

Lemma get_databases_cached_django drv self c calls (w : World) :
  client self = Some c →
  get_databases drv self calls w
  = (map (fun _ => client_db drv c self) calls, self, w).
Proof.
  intros Hc. induction calls as [|[env n] calls IH]; simpl; [done|].
  unfold get_database. by rewrite Hc, IH.
Qed.

(** One instance hands out one database handle, whatever it is asked. *)
Lemma get_databases_same_handle drv calls : ∀ self (w : World) db1 db2,
  Return db1 ∈ fst (fst (get_databases drv self calls w)) →
  Return db2 ∈ fst (fst (get_databases drv self calls w)) →
  db1 = db2.
Proof.
  assert (Hcached : ∀ self c calls (w : World) db1 db2,
    client self = Some c →
    Return db1 ∈ fst (fst (get_databases drv self calls w)) →
    Return db2 ∈ fst (fst (get_databases drv self calls w)) →
    db1 = db2).
  { intros self c cs w db1 db2 Hc.
    rewrite (get_databases_cached_django drv self c cs w Hc). simpl.
    intros (_ & H1 & _)%list_elem_of_fmap (_ & H2 & _)%list_elem_of_fmap.
    congruence. }
  induction calls as [|[env n] calls IH]; intros self w db1 db2; simpl.
  - by intros ?%elem_of_nil.
  - destruct (client self) as [c|] eqn:Hc.
    + pose proof (Hcached self c ((env, n) :: calls) w db1 db2 Hc) as Hall.
      simpl in Hall. exact Hall.
    + unfold get_database. rewrite Hc.
      destruct (get_database_uri env self true) as [u'|e].
      * unfold MongoClient_new. destruct (MongoClient_error drv u').
        -- specialize (IH (set_uri u' self) w db1 db2).
           destruct (get_databases drv (set_uri u' self) calls w)
             as [[rs self'] w'].
           simpl in *. rewrite !elem_of_cons.
           intros [?|?] [?|?]; try done. by apply IH.
        -- pose proof (get_databases_cached_django drv
                         (set_client {| client_id := length w; client_uri := u' |}
                            (set_uri u' self))
                         {| client_id := length w; client_uri := u' |}
                         calls (w ++ [u']) eq_refl) as Hrest.
           rewrite Hrest. simpl. rewrite !elem_of_cons.
           intros [H1|(_ & H1 & _)%list_elem_of_fmap]
                  [H2|(_ & H2 & _)%list_elem_of_fmap]; congruence.
      * specialize (IH self w db1 db2).
        destruct (get_databases drv self calls w) as [[rs self'] w'].
        simpl in *. rewrite !elem_of_cons.
        intros [?|?] [?|?]; try done. by apply IH.
Qed.

Lemma init_db_name env u self :
  __init__ env u = Return self →
  ∃ name, db_name self = Some name
          ∧ settings_mongodb env "DB_NAME" = Return name
          ∧ find_package env "django" = true.
Proof.
  unfold __init__, get_db_name, _is_django_installed. simpl.
  destruct (find_package env "django"); [|done].
  destruct (settings_mongodb env "DB_NAME") as [name|e]; [|done].
  simpl. intros [= <-]. by exists name.
Qed.
End Django.

(** C9: [DjangoMongoDBConnection.get_database] does not depend on its
    argument: two calls that differ only in the name passed do the same and
    return the same, and so do two runs of calls; every handle returned is
    to the database named by [db_name], which is the name the constructor
    read from the settings and which no call changes. *)
Theorem django_get_database_ignores_name (env0 : Env) (u : option string)
    (self0 : DjangoMongoDBConnection.t) :
  DjangoMongoDBConnection.__init__ env0 u = Return self0 →
  ∃ name,
    DjangoMongoDBConnection.db_name self0 = Some name
    ∧ DjangoMongoDBConnection.settings_mongodb env0 "DB_NAME" = Return name
    ∧ (∀ env drv self n1 n2 (w : World),
         DjangoMongoDBConnection.get_database env drv self n1 w
         = DjangoMongoDBConnection.get_database env drv self n2 w)
    ∧ (∀ drv calls calls' (w : World),
         map fst calls = map fst calls' →
         DjangoMongoDBConnection.get_databases drv self0 calls w
         = DjangoMongoDBConnection.get_databases drv self0 calls' w)
    ∧ (∀ drv calls (w : World),
         let '(rs, self, _) :=
           DjangoMongoDBConnection.get_databases drv self0 calls w in
         DjangoMongoDBConnection.db_name self = Some name
         ∧ Forall (fun r => ∀ db, r = Return db → db_name db = name) rs
         ∧ (∀ db1 db2, Return db1 ∈ rs → Return db2 ∈ rs → db1 = db2)).
Proof.
  intros (name & Hname & Hsettings & _)%init_db_name.
  exists name. split_and!; try done.
  - intros. by apply get_databases_any_names.
  - intros drv calls w.
    pose proof (get_databases_db_name drv calls self0 w) as [Hkeep Hall].
    pose proof (get_databases_same_handle drv calls self0 w) as Hsame.
    destruct (DjangoMongoDBConnection.get_databases drv self0 calls w)
      as [[rs self] w'].
    simpl in *. split_and!; [congruence | | exact Hsame].
    eapply Forall_impl; [exact Hall|]. simpl.
    intros r Hr db Hdb. specialize (Hr db Hdb). congruence.
Qed.

Lemma django_get_database_ignores_name_witness :
  let self0 :=
    {| DjangoMongoDBConnection.client := None;
       DjangoMongoDBConnection.uri := None;
       DjangoMongoDBConnection.db_name := Some "prod" |} in
  DjangoMongoDBConnection.__init__ with_django None = Return self0
  ∧ ∃ name,
      DjangoMongoDBConnection.db_name self0 = Some name
      ∧ DjangoMongoDBConnection.get_database with_django accepting self0 "test" []
        = DjangoMongoDBConnection.get_database with_django accepting self0 name [].
Proof.
  intros self0.
  assert (Hinit : DjangoMongoDBConnection.__init__ with_django None = Return self0)
    by reflexivity.
  split; [exact Hinit|].
  destruct (django_get_database_ignores_name with_django None self0 Hinit)
    as (name & Hname & _ & Hany & _).
  exists name. split; [exact Hname | apply Hany].
Defined.

Example django_get_database_prod :
  fst (fst (DjangoMongoDBConnection.get_database with_django accepting
              {| DjangoMongoDBConnection.client := None;
                 DjangoMongoDBConnection.uri := None;
                 DjangoMongoDBConnection.db_name := Some "prod" |} "test" []))
  = Return {| db_client := {| client_id := 0; client_uri := Some "mongodb://db" |};
              db_name := "prod" |}.
Proof. reflexivity. Qed.

(** C3, as the code has it: where [find_package] does not find Django, the
    constructor of [DjangoMongoDBConnection] reads [self.db_name] before
    anything has set it and raises; with the same URI the constructor of
    [MongoDBConnection] returns an instance, and its [get_database(n)]
    builds the client from that URI and returns its database [n]. *)
Theorem django_absent_constructor_raises (env : Env) (drv : Driver)
    (uri n : string) (w : World) :
  find_package env "django" = false →
  MongoClient_error drv (Some uri) = None →
  DjangoMongoDBConnection.__init__ env (Some uri)
  = Raise (AttributeError "db_name")
  ∧ fst (fst (MongoDBConnection.get_database drv
                (MongoDBConnection.__init__ uri) n w))
    = getitem drv {| client_id := length w; client_uri := Some uri |} n.
Proof.
  intros Habsent Hok. split.
  - unfold DjangoMongoDBConnection.__init__, DjangoMongoDBConnection.get_db_name,
      DjangoMongoDBConnection._is_django_installed.
    by rewrite Habsent.
  - by rewrite (get_database_first drv uri n w Hok).
Qed.

Lemma django_absent_constructor_raises_witness :
  find_package without_django "django" = false
  ∧ DjangoMongoDBConnection.__init__ without_django (Some "mongodb://h")
    = Raise (AttributeError "db_name")
  ∧ fst (fst (MongoDBConnection.get_database accepting
                (MongoDBConnection.__init__ "mongodb://h") "shop" []))
    = Return {| db_client := {| client_id := 0; client_uri := Some "mongodb://h" |};
                db_name := "shop" |}.
Proof.
  split; [reflexivity|].
  exact (django_absent_constructor_raises without_django accepting
           "mongodb://h" "shop" [] eq_refl eq_refl).
Defined.

End ConnectionSpec.

(** ** The insert repository *)

Module RepositorySpec.
Import Repository.

Section InsertMany.
Context {C : Type} `{Collection C}.

Lemma insert_many_state (c : C) docs :
  snd (insert_many c docs) = snd (coll_insert_many c docs).
Proof.
  unfold insert_many. destruct (coll_insert_many c docs) as [[r|e] c']; [done|].
  by destruct (is_BulkWriteError e).
Qed.

Lemma insert_many_swallows (c : C) docs details c' :
  coll_insert_many c docs = (Raise (BulkWriteError details), c') →
  insert_many c docs = (Return None, c').
Proof. intros Hd. unfold insert_many. by rewrite Hd. Qed.
End InsertMany.

(** C4, as the code has it: [insert_many] makes the collection's
    [insert_many] call and leaves the collection as that call leaves it.
    The driver's result is returned unchanged.  A [BulkWriteError] is
    caught and dropped: the method returns [None], whatever the error
    carried, so no two bulk-write failures can be told apart and no
    [BulkWriteError] ever reaches the caller.  Any other exception is
    raised unchanged. *)
Theorem insert_many_bulk_error_discarded {C : Type} `{Collection C}
    (c : C) (docs : list Value) :
  snd (insert_many c docs) = snd (coll_insert_many c docs)
  ∧ (∀ r c', coll_insert_many c docs = (Return r, c') →
       insert_many c docs = (Return (Some r), c'))
  ∧ (∀ details c',
       coll_insert_many c docs = (Raise (BulkWriteError details), c') →
       insert_many c docs = (Return None, c'))
  ∧ (∀ e c', coll_insert_many c docs = (Raise e, c') →
       is_BulkWriteError e = false → insert_many c docs = (Raise e, c'))
  ∧ (∀ e, fst (insert_many c docs) = Raise e → is_BulkWriteError e = false)
  ∧ (∀ (c2 : C) docs2 d1 d2 c1' c2',
       coll_insert_many c docs = (Raise (BulkWriteError d1), c1') →
       coll_insert_many c2 docs2 = (Raise (BulkWriteError d2), c2') →
       fst (insert_many c docs) = fst (insert_many c2 docs2)).
Proof.
  split_and!.
  - apply insert_many_state.
  - intros r c' Hd. unfold insert_many. by rewrite Hd.
  - intros. by eapply insert_many_swallows.
  - intros e c' Hd He. unfold insert_many. by rewrite Hd, He.
  - intros e. unfold insert_many.
    destruct (coll_insert_many c docs) as [[r|e'] c']; [done|].
    destruct (is_BulkWriteError e') eqn:He; [done|]. simpl. by intros [= <-].
  - intros c2 docs2 d1 d2 c1' c2' H1 H2.
    by rewrite (insert_many_swallows _ _ _ _ H1), (insert_many_swallows _ _ _ _ H2).
Qed.

(** C4, as the claim has it, fails: the caller does tell a partial success
    from a total one.  Two documents go into an empty collection and the
    driver's result comes back; into a collection that holds the second
    document's [_id] only the first goes, the driver raises, and [None]
    comes back. *)
Lemma insert_many_partial_success_shows :
  let docs := [VDict [("_id", VInt 1)]; VDict [("_id", VInt 2)]] in
  let empty : list Value := [] in
  let held := [VDict [("_id", VInt 2); ("v", VStr "old")]] in
  coll_insert_many empty docs
  = (Return {| inserted_ids := [VInt 1; VInt 2]; acknowledged := true |}, docs)
  ∧ coll_insert_many held docs
    = (Raise (BulkWriteError [("nInserted", VInt 1)]),
       held ++ [VDict [("_id", VInt 1)]])
  ∧ fst (insert_many empty docs) ≠ fst (insert_many held docs).
Proof. split_and!; [reflexivity | reflexivity | discriminate]. Qed.

End RepositorySpec.

(** ** More on the pipeline builder *)

Module PipelineMore.
Import Pipeline PyFacts PipelineSpec Aux.

Lemma group_id_step_filter groupby : ∀ ident,
  fold_left group_id_step (List.filter is_name_or_mapping groupby) ident
  = fold_left group_id_step groupby ident.
Proof.
  induction groupby as [|field groupby IH]; intros ident; [done|].
  destruct field; simpl; by rewrite IH.
Qed.

Lemma dict_of_pairs_fixed {V} (kvs : list (string * V)) :
  dict_of_pairs (dict_of_pairs kvs) = dict_of_pairs kvs.
Proof.
  apply dict_of_pairs_distinct.
  apply (dict_wf_update [] kvs), NoDup_nil_2.
Qed.


(** X1: entries of [groupby] that are neither a string nor a mapping take
    no part: [group] appends the stage it appends without them, and a
    [groupby] of such entries only gives the stage of the empty list. *)
Theorem group_skips_other_entries (groupby : list Value)
    (kwargs : list (string * Value)) (b : PipelineBuilder) (h : Heap) :
  group b groupby kwargs h
  = group b (List.filter is_name_or_mapping groupby) kwargs h
  ∧ (List.filter is_name_or_mapping groupby = [] →
     group b groupby kwargs h
     = (b, list_append (pipeline b)
             (VDict [("$group", VDict (dict_update [("_id", VDict [])] kwargs))])
             h)).
Proof.
  assert (Hid : group_id groupby
                = group_id (List.filter is_name_or_mapping groupby)).
  { unfold group_id. by rewrite group_id_step_filter. }
  split.
  - unfold group, group_stage. by rewrite Hid.
  - intros Hnone. unfold group, group_stage. by rewrite Hid, Hnone.
Qed.

(** X2: a [groupby] list can be folded into one mapping: [group] appends
    the same stage for the list, for the one mapping of all its
    assignments in order, and for the identifier mapping it produced. *)
Theorem group_one_mapping (groupby : list Value)
    (kwargs : list (string * Value)) (b : PipelineBuilder) (h : Heap) :
  group b [VDict (group_id_assignments groupby)] kwargs h
  = group b groupby kwargs h
  ∧ group b [VDict (group_id groupby)] kwargs h = group b groupby kwargs h.
Proof.
  assert (Hone : ∀ d, group_id [VDict d] = dict_of_pairs d) by done.
  split; unfold group, group_stage; rewrite Hone.
  - by rewrite <- group_id_dict.
  - by rewrite group_id_dict, dict_of_pairs_fixed.
Qed.



(** X5: sorting by the pairs of a [$sort] mapping gives that mapping
    again: [sort] appends the same stage for [sortby] and for the list of
    the items of the mapping it made of [sortby]. *)
Theorem sort_of_its_mapping (sortby : SortBy) (b : PipelineBuilder) (h : Heap) :
  sort_dict (SortList (sort_dict sortby)) = sort_dict sortby
  ∧ sort b (SortList (sort_dict sortby)) h = sort b sortby h.
Proof.
  assert (Hfix : sort_dict (SortList (sort_dict sortby)) = sort_dict sortby)
    by apply dict_of_pairs_fixed.
  split; [exact Hfix|]. unfold sort. by rewrite Hfix.
Qed.

(** X6: the list [build()] returns is the builder's own, not a copy: read
    after a later part of the program, the list returned earlier holds the
    stages it held, in their places, followed by the stages of the later
    calls on that builder. *)
Theorem build_result_is_live (h0 : Heap) (cmds1 cmds2 : list Cmd) :
  let b := fst (__init__ h0) in
  let h1 := run cmds1 (snd (__init__ h0)) in
  let r := fst (build b h1) in
  snd (build b h1) !! r = Some (map appended (calls_on b cmds1))
  ∧ run cmds2 (snd (build b h1)) !! r
    = Some (map appended (calls_on b cmds1) ++ map appended (calls_on b cmds2)).
Proof.
  intros b h1 r.
  assert (H1 : h1 !! pipeline b = Some (map appended (calls_on b cmds1))).
  { apply (run_lookup cmds1 b _ []), init_lookup. }
  split; [exact H1|].
  simpl. by apply run_lookup.
Qed.

End PipelineMore.

(** ** More on the connection providers *)

Module ConnectionMore.
Import Connection ConnectionSpec Aux.

(** X7: a URI the driver refuses is tried again on every call: each
    [get_database] raises the driver's exception, no client is kept and
    none is counted as built. *)
Theorem direct_refused_uri_retried (drv : Driver) (uri : string)
    (e : Exception) (names : list string) (w : World) :
  MongoClient_error drv (Some uri) = Some e →
  MongoDBConnection.get_databases drv (MongoDBConnection.__init__ uri) names w
  = (map (fun _ => Raise e) names, MongoDBConnection.__init__ uri, w).
Proof.
  intros Hbad. induction names as [|n names IH]; simpl; [done|].
  unfold MongoDBConnection.get_database, MongoClient_new. simpl.
  by rewrite Hbad, IH.
Qed.

Lemma direct_refused_uri_retried_witness :
  MongoClient_error (refusing_uri "mongo://h" (OtherError "InvalidURI"))
    (Some "mongo://h") = Some (OtherError "InvalidURI")
  ∧ MongoDBConnection.get_databases
      (refusing_uri "mongo://h" (OtherError "InvalidURI"))
      (MongoDBConnection.__init__ "mongo://h") ["shop"; "logs"] []
    = ([Raise (OtherError "InvalidURI"); Raise (OtherError "InvalidURI")],
       MongoDBConnection.__init__ "mongo://h", []).
Proof.
  split; [reflexivity|].
  exact (direct_refused_uri_retried
           (refusing_uri "mongo://h" (OtherError "InvalidURI")) "mongo://h"
           (OtherError "InvalidURI") ["shop"; "logs"] [] eq_refl).
Defined.

(** X8: the client is built before the database is looked up, so it is
    kept also when the lookup raises: after a [get_database] whose name
    the driver refuses, the next call builds no client and returns the
    database of the client built by the first. *)
Theorem direct_client_kept_when_name_refused (drv : Driver)
    (uri n m : string) (e : Exception) (w : World) :
  MongoClient_error drv (Some uri) = None →
  getitem_error drv n = Some e →
  getitem_error drv m = None →
  let c := {| client_id := length w; client_uri := Some uri |} in
  MongoDBConnection.get_databases drv (MongoDBConnection.__init__ uri) [n; m] w
  = ([Raise e; Return {| db_client := c; db_name := m |}],
     {| MongoDBConnection.uri := uri; MongoDBConnection.client := Some c |},
     w ++ [Some uri]).
Proof.
  intros Hok Hn Hm c. simpl.
  rewrite (get_database_first drv uri n w Hok). fold c.
  rewrite (get_database_cached drv _ c) by done.
  unfold getitem. by rewrite Hn, Hm.
Qed.

Lemma direct_client_kept_when_name_refused_witness :
  getitem_error (refusing_name "a.b" (OtherError "InvalidName")) "a.b"
  = Some (OtherError "InvalidName")
  ∧ MongoDBConnection.get_databases
      (refusing_name "a.b" (OtherError "InvalidName"))
      (MongoDBConnection.__init__ "mongodb://h") ["a.b"; "shop"] []
    = ([Raise (OtherError "InvalidName");
        Return {| db_client := {| client_id := 0; client_uri := Some "mongodb://h" |};
                  db_name := "shop" |}],
       {| MongoDBConnection.uri := "mongodb://h";
          MongoDBConnection.client :=
            Some {| client_id := 0; client_uri := Some "mongodb://h" |} |},
       [Some "mongodb://h"]).
Proof.
  split; [reflexivity|].
  exact (direct_client_kept_when_name_refused
           (refusing_name "a.b" (OtherError "InvalidName")) "mongodb://h" "a.b"
           "shop" (OtherError "InvalidName") [] eq_refl eq_refl eq_refl).
Defined.

Section Django.
Import DjangoMongoDBConnection.

Lemma init_installed env u d :
  find_package env "django" = true →
  settings_mongodb env "DB_NAME" = Return d →
  __init__ env u = Return {| client := None; uri := u; db_name := Some d |}.
Proof.
  intros Hdj Hd. unfold __init__, get_db_name, _is_django_installed. simpl.
  by rewrite Hdj, Hd.
Qed.
End Django.

(** X9: where Django is installed the URI given to the constructor is
    never used: the first [get_database] builds its client from the URI of
    the settings and puts that URI in place of the constructor's, so the
    handle returned, the instance left and the clients built are the same
    for every constructor argument. *)
Theorem django_settings_uri_wins (env : Env) (drv : Driver) (s d : string)
    (u : option string) (n : string) (w : World) :
  find_package env "django" = true →
  DjangoMongoDBConnection.settings_mongodb env "URI" = Return s →
  DjangoMongoDBConnection.settings_mongodb env "DB_NAME" = Return d →
  MongoClient_error drv (Some s) = None →
  let c := {| client_id := length w; client_uri := Some s |} in
  ∃ self0,
    DjangoMongoDBConnection.__init__ env u = Return self0
    ∧ DjangoMongoDBConnection.uri self0 = u
    ∧ DjangoMongoDBConnection.get_database env drv self0 n w
      = (getitem drv c d,
         {| DjangoMongoDBConnection.client := Some c;
            DjangoMongoDBConnection.uri := Some s;
            DjangoMongoDBConnection.db_name := Some d |},
         w ++ [Some s]).
Proof.
  intros Hdj Hs Hd Hok c. eexists. split; [by apply init_installed|].
  split; [done|].
  unfold DjangoMongoDBConnection.get_database,
    DjangoMongoDBConnection.get_database_uri,
    DjangoMongoDBConnection._is_django_installed, MongoClient_new.
  simpl. by rewrite Hdj, Hs, Hok.
Qed.

Lemma django_settings_uri_wins_witness :
  find_package with_django "django" = true
  ∧ ∃ self0,
      DjangoMongoDBConnection.__init__ with_django (Some "mongodb://mine")
      = Return self0
      ∧ DjangoMongoDBConnection.uri self0 = Some "mongodb://mine"
      ∧ DjangoMongoDBConnection.get_database with_django accepting self0 "test" []
        = (Return {| db_client := {| client_id := 0;
                                     client_uri := Some "mongodb://db" |};
                     db_name := "prod" |},
           {| DjangoMongoDBConnection.client :=
                Some {| client_id := 0; client_uri := Some "mongodb://db" |};
              DjangoMongoDBConnection.uri := Some "mongodb://db";
              DjangoMongoDBConnection.db_name := Some "prod" |},
           [Some "mongodb://db"]).
Proof.
  split; [reflexivity|].
  exact (django_settings_uri_wins with_django accepting "mongodb://db" "prod"
           (Some "mongodb://mine") "test" [] eq_refl eq_refl eq_refl eq_refl).
Defined.

(** X10: once an instance has its client, [get_database] reads neither
    the settings nor [find_package] again and builds nothing: whatever the
    surroundings have become at each later call, every call returns the
    database [db_name] of that client and leaves the instance as it is. *)
Theorem django_client_memoized (drv : Driver)
    (self : DjangoMongoDBConnection.t) (c : MongoClient) (d : string)
    (calls : list (Env * string)) (w : World) :
  DjangoMongoDBConnection.client self = Some c →
  DjangoMongoDBConnection.db_name self = Some d →
  DjangoMongoDBConnection.get_databases drv self calls w
  = (map (fun _ => getitem drv c d) calls, self, w).
Proof.
  intros Hc Hd. rewrite (get_databases_cached_django drv self c calls w Hc).
  unfold DjangoMongoDBConnection.client_db, DjangoMongoDBConnection.read_db_name.
  by rewrite Hd.
Qed.

Lemma django_client_memoized_witness :
  let c := {| client_id := 0; client_uri := Some "mongodb://db" |} in
  let self :=
    {| DjangoMongoDBConnection.client := Some c;
       DjangoMongoDBConnection.uri := Some "mongodb://db";
       DjangoMongoDBConnection.db_name := Some "prod" |} in
  snd (fst (DjangoMongoDBConnection.get_database with_django accepting
              {| DjangoMongoDBConnection.client := None;
                 DjangoMongoDBConnection.uri := None;
                 DjangoMongoDBConnection.db_name := Some "prod" |} "x" []))
  = self
  ∧ DjangoMongoDBConnection.get_databases accepting self
      [(django_moved, "a"); (without_django, "b")] [Some "mongodb://db"]
    = ([Return {| db_client := c; db_name := "prod" |};
        Return {| db_client := c; db_name := "prod" |}],
       self, [Some "mongodb://db"]).
Proof.
  intros c self. split; [reflexivity|].
  exact (django_client_memoized accepting self c "prod"
           [(django_moved, "a"); (without_django, "b")] [Some "mongodb://db"]
           eq_refl eq_refl).
Defined.

(** X11: the constructor reads the database name only.  With settings
    that have the name and not the URI the constructor returns, and then
    every [get_database] raises the lookup's exception: no client is
    built, nothing is kept, and the next call fails the same way. *)
Theorem django_missing_uri (env : Env) (drv : Driver) (d : string)
    (e : Exception) (u : option string) (names : list string) (w : World) :
  find_package env "django" = true →
  DjangoMongoDBConnection.settings_mongodb env "DB_NAME" = Return d →
  DjangoMongoDBConnection.settings_mongodb env "URI" = Raise e →
  ∃ self0,
    DjangoMongoDBConnection.__init__ env u = Return self0
    ∧ DjangoMongoDBConnection.get_databases drv self0
        (map (fun n => (env, n)) names) w
      = (map (fun _ => Raise e) names, self0, w).
Proof.
  intros Hdj Hd Hs. eexists. split; [by apply init_installed|].
  induction names as [|n names IH]; simpl; [done|].
  unfold DjangoMongoDBConnection.get_database,
    DjangoMongoDBConnection.get_database_uri,
    DjangoMongoDBConnection._is_django_installed.
  simpl. rewrite Hdj, Hs. simpl. by rewrite IH.
Qed.

Lemma django_missing_uri_witness :
  DjangoMongoDBConnection.settings_mongodb django_without_uri "URI"
  = Raise (KeyError "URI")
  ∧ ∃ self0,
      DjangoMongoDBConnection.__init__ django_without_uri None = Return self0
      ∧ DjangoMongoDBConnection.get_databases accepting self0
          (map (fun n => (django_without_uri, n)) ["a"; "b"]) []
        = (map (fun _ => Raise (KeyError "URI")) ["a"; "b"], self0, []).
Proof.
  split; [reflexivity|].
  exact (django_missing_uri django_without_uri accepting "prod" (KeyError "URI")
           None ["a"; "b"] [] eq_refl eq_refl eq_refl).
Defined.

(** X12: where Django is installed the constructor returns exactly when
    the settings have a database name under ["mongodb"]: without a
    ["mongodb"] entry it raises [KeyError] for ["mongodb"], with an entry
    that has no ["DB_NAME"] it raises [KeyError] for ["DB_NAME"], and
    otherwise it returns an instance with that name, no client, and the
    URI it was given. *)
Theorem django_constructor_needs_db_name (env : Env)
    (databases : list (string * list (string * string))) (u : option string) :
  find_package env "django" = true →
  settings_DATABASES env = Return databases →
  DjangoMongoDBConnection.__init__ env u
  = match dict_get databases "mongodb" with
    | None => Raise (KeyError "mongodb")
    | Some cfg =>
        match dict_get cfg "DB_NAME" with
        | None => Raise (KeyError "DB_NAME")
        | Some d =>
            Return {| DjangoMongoDBConnection.client := None;
                      DjangoMongoDBConnection.uri := u;
                      DjangoMongoDBConnection.db_name := Some d |}
        end
    end.
Proof.
  intros Hdj Hdbs.
  unfold DjangoMongoDBConnection.__init__, DjangoMongoDBConnection.get_db_name,
    DjangoMongoDBConnection._is_django_installed,
    DjangoMongoDBConnection.settings_mongodb.
  simpl. rewrite Hdj, Hdbs.
  destruct (dict_get databases "mongodb") as [cfg|]; [|done].
  by destruct (dict_get cfg "DB_NAME").
Qed.

Lemma django_constructor_needs_db_name_witness :
  find_package django_without_uri "django" = true
  ∧ DjangoMongoDBConnection.__init__ django_without_uri (Some "mongodb://h")
    = Return {| DjangoMongoDBConnection.client := None;
                DjangoMongoDBConnection.uri := Some "mongodb://h";
                DjangoMongoDBConnection.db_name := Some "prod" |}.
Proof.
  split; [reflexivity|].
  exact (django_constructor_needs_db_name django_without_uri
           [("mongodb", [("DB_NAME", "prod")])] (Some "mongodb://h")
           eq_refl eq_refl).
Defined.

(** X13: [get_db_name()] reads the settings again and puts what it finds
    in [db_name], so a call made after the settings changed moves the
    instance to the new database: [get_database] then returns the new
    name's database, of the client the instance already has.
    [get_db_name(use_django=False)] reads nothing and returns the name
    the instance holds. *)
Theorem django_get_db_name_resolves_again (env : Env) (drv : Driver)
    (self : DjangoMongoDBConnection.t) (c : MongoClient) (d d' : string)
    (env' : Env) (n : string) (w : World) :
  find_package env "django" = true →
  DjangoMongoDBConnection.settings_mongodb env "DB_NAME" = Return d' →
  DjangoMongoDBConnection.client self = Some c →
  DjangoMongoDBConnection.db_name self = Some d →
  DjangoMongoDBConnection.get_db_name env self false = (Return d, self)
  ∧ fst (fst (DjangoMongoDBConnection.get_database env' drv self n w))
    = getitem drv c d
  ∧ let '(r, self') := DjangoMongoDBConnection.get_db_name env self true in
    r = Return d'
    ∧ DjangoMongoDBConnection.db_name self' = Some d'
    ∧ DjangoMongoDBConnection.get_database env' drv self' n w
      = (getitem drv c d', self', w).
Proof.
  intros Hdj Hd' Hc Hd.
  unfold DjangoMongoDBConnection.get_db_name,
    DjangoMongoDBConnection._is_django_installed,
    DjangoMongoDBConnection.get_database,
    DjangoMongoDBConnection.client_db,
    DjangoMongoDBConnection.read_db_name.
  simpl. rewrite Hdj, Hd', Hc, Hd. simpl. by rewrite Hc.
Qed.

Lemma django_get_db_name_resolves_again_witness :
  let c := {| client_id := 0; client_uri := Some "mongodb://db" |} in
  let self :=
    {| DjangoMongoDBConnection.client := Some c;
       DjangoMongoDBConnection.uri := Some "mongodb://db";
       DjangoMongoDBConnection.db_name := Some "prod" |} in
  DjangoMongoDBConnection.settings_mongodb django_moved "DB_NAME"
  = Return "staging"
  ∧ fst (fst (DjangoMongoDBConnection.get_database django_moved accepting
                (snd (DjangoMongoDBConnection.get_db_name django_moved self true))
                "prod" [Some "mongodb://db"]))
    = Return {| db_client := c; db_name := "staging" |}.
Proof.
  intros c self. split; [reflexivity|].
  pose proof (django_get_db_name_resolves_again django_moved accepting self c
                "prod" "staging" django_moved "prod" [Some "mongodb://db"]
                eq_refl eq_refl eq_refl eq_refl) as (_ & _ & Hagain).
  simpl in Hagain. destruct Hagain as (_ & _ & Hget).
  exact (f_equal (fun x => fst (fst x)) Hget).
Defined.

End ConnectionMore.

(** ** The mixin and the facade *)

Module FacadeSpec.
Import Connection ConnectionSpec Mixins Aux.

Lemma init_returns drv collection_error cn dn u (w : World) :
  MongoClient_error drv (Some u) = None →
  getitem_error drv dn = None →
  collection_error cn = None →
  DBRepository.__init__ drv collection_error cn dn u w
  = (Return {| collection :=
                 {| coll_database :=
                      {| db_client := {| client_id := length w;
                                         client_uri := Some u |};
                         db_name := dn |};
                    coll_name := cn |} |},
     w ++ [Some u]).
Proof.
  intros Hu Hdn Hcn. unfold DBRepository.__init__, __init__.
  rewrite (get_database_first drv u dn w Hu).
  unfold getitem, db_getitem. by rewrite Hdn, Hcn.
Qed.

(** X14: every facade builds a client of its own.  Facades made one after
    the other, also from the same three arguments, leave one more client
    each; the collection of the [i]-th is the named collection of the
    named database of the [i]-th client built, from that facade's URI. *)
Theorem facades_build_their_own_clients (drv : Driver)
    (collection_error : string → option Exception)
    (args : list (string * string * string)) (w : World) :
  (∀ u, MongoClient_error drv u = None) →
  (∀ n, getitem_error drv n = None) →
  (∀ n, collection_error n = None) →
  let '(rs, w') := DBRepository.make_all drv collection_error args w in
  w' = w ++ map (fun a => Some (snd a)) args
  ∧ length rs = length args
  ∧ ∀ i cn dn u, args !! i = Some (cn, dn, u) →
      rs !! i
      = Some (Return {| collection :=
                          {| coll_database :=
                               {| db_client := {| client_id := length w + i;
                                                  client_uri := Some u |};
                                  db_name := dn |};
                             coll_name := cn |} |}).
Proof.
  intros Hu Hdn Hcn. revert w.
  induction args as [|[[cn0 dn0] u0] args IH]; intros w; simpl.
  - rewrite app_nil_r. split_and!; done.
  - rewrite (init_returns drv collection_error cn0 dn0 u0 w) by done.
    specialize (IH (w ++ [Some u0])).
    destruct (DBRepository.make_all drv collection_error args (w ++ [Some u0]))
      as [rs w'].
    destruct IH as (Hw & Hlen & Hith). split_and!.
    + by rewrite Hw, <- app_assoc.
    + simpl. by rewrite Hlen.
    + intros [|i] cn dn u Hi; simpl in *.
      * injection Hi as -> -> ->. by rewrite Nat.add_0_r.
      * rewrite (Hith i cn dn u Hi), length_app. simpl.
        by replace (length w + 1 + i) with (length w + S i) by lia.
Qed.

Lemma facades_build_their_own_clients_witness :
  (∀ u, MongoClient_error accepting u = None)
  ∧ snd (DBRepository.make_all accepting (fun _ => None)
           [("orders", "shop", "mongodb://h"); ("orders", "shop", "mongodb://h")]
           [])
    = [Some "mongodb://h"; Some "mongodb://h"].
Proof.
  split; [intros u; reflexivity|].
  exact (proj1 (facades_build_their_own_clients accepting (fun _ => None)
                  [("orders", "shop", "mongodb://h");
                   ("orders", "shop", "mongodb://h")]
                  [] (fun _ => eq_refl) (fun _ => eq_refl) (fun _ => eq_refl))).
Defined.

(** X15: the constructor of a facade raises what the driver raises, and
    the client it has built by then stays built: for a URI the driver
    refuses there is no client; for a database name or a collection name
    the driver refuses there is one, though no facade comes back to hold
    it. *)
Theorem facade_client_left_when_name_refused (drv : Driver)
    (collection_error : string → option Exception)
    (cn dn uri : string) (e : Exception) (w : World) :
  (MongoClient_error drv (Some uri) = Some e →
   DBRepository.__init__ drv collection_error cn dn uri w = (Raise e, w))
  ∧ (MongoClient_error drv (Some uri) = None →
     getitem_error drv dn = Some e →
     DBRepository.__init__ drv collection_error cn dn uri w
     = (Raise e, w ++ [Some uri]))
  ∧ (MongoClient_error drv (Some uri) = None →
     getitem_error drv dn = None →
     collection_error cn = Some e →
     DBRepository.__init__ drv collection_error cn dn uri w
     = (Raise e, w ++ [Some uri])).
Proof.
  split_and!.
  - intros Hu. unfold DBRepository.__init__, __init__,
      MongoDBConnection.get_database, MongoClient_new.
    simpl. by rewrite Hu.
  - intros Hu Hdn. unfold DBRepository.__init__, __init__.
    rewrite (get_database_first drv uri dn w Hu).
    unfold getitem. by rewrite Hdn.
  - intros Hu Hdn Hcn. unfold DBRepository.__init__, __init__.
    rewrite (get_database_first drv uri dn w Hu).
    unfold getitem, db_getitem. by rewrite Hdn, Hcn.
Qed.

Lemma facade_client_left_when_name_refused_witness :
  DBRepository.__init__ (refusing_name "a.b" (OtherError "InvalidName"))
    (fun _ => None) "orders" "a.b" "mongodb://h" []
  = (Raise (OtherError "InvalidName"), [Some "mongodb://h"]).
Proof.
  exact (proj1 (proj2
    (facade_client_left_when_name_refused
       (refusing_name "a.b" (OtherError "InvalidName")) (fun _ => None)
       "orders" "a.b" "mongodb://h" (OtherError "InvalidName") []))
    eq_refl eq_refl).
Defined.

End FacadeSpec.
